(** * UI components of the web front-end: TrackCard, the Menu widget, Textarea

    A shallow embedding of
      - [src/components/base/TrackCard/TrackCard.tsx] (the [TrackCard]
        function component, and the [Menu] / [MenuButton] / [MenuItems] /
        [MenuItem] components that follow it in the same file), and
      - the React [Textarea] component.

    Component state lives in a [World] that is passed explicitly; code that
    can throw returns an [Outcome]. DOM elements are handles ([HTMLElement]),
    the part of the DOM the code reads ([parentElement], [children]) is a
    pair of functions of the world. *)

From Stdlib Require Import List ZArith String Bool Arith Lia.
From Stdlib Require DecimalString.
Import ListNotations.

Local Open Scope string_scope.

(** ** JavaScript runtime: exceptions, optional chaining, arrays *)

Inductive Exn : Type :=
  | TypeError                (* raised by the runtime itself *)
  | Error (message : string) (* [new Error(message)] *).

(** A DOM element is a handle; identity is what [indexOf] compares. *)
Definition HTMLElement : Type := nat.

(** [a?.f]: [undefined] when [a] is [null] or [undefined]. *)
Definition optChain {A B : Type} (a : option A) (f : A -> option B) : option B :=
  match a with
  | Some x => f x
  | None => None
  end.

Notation "a ?. f" := (optChain a f) (at level 40, left associativity).

(** [arr.indexOf(x)]: position of the first element identical to [x], -1 when
    there is none. [x] may be [null]/[undefined], which no element equals. *)
Fixpoint indexOf_from (i : Z) (arr : list HTMLElement) (x : HTMLElement) : Z :=
  match arr with
  | [] => -1
  | y :: rest => if Nat.eqb y x then i else indexOf_from (i + 1) rest x
  end.

Definition indexOf (arr : list HTMLElement) (x : option HTMLElement) : Z :=
  match x with
  | Some e => indexOf_from 0 arr e
  | None => -1
  end.

(** [collection[index]] on an [HTMLCollection] with an integer [index]: the
    element at that position, [undefined] below 0 and from [length] on. *)
Definition item (collection : list HTMLElement) (index : Z) : option HTMLElement :=
  if (index <? 0)%Z then None else nth_error collection (Z.to_nat index).

(** ** The Menu widget *)

(** [enum Focus] *)
Inductive Focus : Type := First | Previous | Next | Last.

(** The argument of [focus]: [Focus | number]. Only integers are modelled. *)
Inductive FocusIndex : Type :=
  | Target (f : Focus)
  | Index (n : Z).

(** [enum MenuState] *)
Inductive MenuState : Type := Opened | Closed.

Definition MenuState_eqb (a b : MenuState) : bool :=
  match a, b with
  | Opened, Opened | Closed, Closed => true
  | _, _ => false
  end.

(** The three closures the components hand to [nextTick]. *)
Inductive Callback : Type :=
  | FocusFirst       (* () => { api.focus(Focus.First) } *)
  | FocusMenuItems   (* () => { api.menuItemsRef.value?.focus() } *)
  | FocusMenuButton  (* () => api.menuButtonRef.value?.focus() *).

(** What one [Menu] instance and the page around it hold.

    [menuState], [menuItemsRef], [menuButtonRef] are the three [ref]s created
    in [Menu]'s setup. [activeElement] is the value of the ref returned by
    [useActiveElement()] (the hook itself is not part of this file; its value
    is [null]/[undefined] when it has recorded no focused element).
    [focusCalls] logs every [HTMLElement.focus()] call, newest first, and
    [ticks] is the [nextTick] queue, oldest first. *)
Record World : Type := mkWorld {
  menuState : MenuState;
  menuItemsRef : option HTMLElement;
  menuButtonRef : option HTMLElement;
  activeElement : option HTMLElement;
  parentElement : HTMLElement -> option HTMLElement;
  children : HTMLElement -> list HTMLElement;
  focusCalls : list HTMLElement;
  ticks : list Callback
}.

Definition set_menuState (s : MenuState) (w : World) : World :=
  mkWorld s (menuItemsRef w) (menuButtonRef w) (activeElement w)
          (parentElement w) (children w) (focusCalls w) (ticks w).

Definition set_menuItemsRef (r : option HTMLElement) (w : World) : World :=
  mkWorld (menuState w) r (menuButtonRef w) (activeElement w)
          (parentElement w) (children w) (focusCalls w) (ticks w).

Definition set_ticks (q : list Callback) (w : World) : World :=
  mkWorld (menuState w) (menuItemsRef w) (menuButtonRef w) (activeElement w)
          (parentElement w) (children w) (focusCalls w) q.

(** Result of running a piece of code: it returns, or it throws; either way
    the mutations made so far stay. *)
Inductive Outcome (A : Type) : Type :=
  | Returns (a : A) (w : World)
  | Throws (e : Exn) (w : World).

Arguments Returns {A} a w.
Arguments Throws {A} e w.

Definition M (A : Type) : Type := World -> Outcome A.

Definition ret {A : Type} (a : A) : M A := fun w => Returns a w.

Definition bind {A B : Type} (m : M A) (k : A -> M B) : M B :=
  fun w =>
    match m w with
    | Returns a w' => k a w'
    | Throws e w' => Throws e w'
    end.

Definition throw {A : Type} (e : Exn) : M A := fun w => Throws e w.

Definition gets {A : Type} (f : World -> A) : M A := fun w => Returns (f w) w.

Definition modify (f : World -> World) : M unit := fun w => Returns tt (f w).

Declare Scope js_scope.
Delimit Scope js_scope with js.
Notation "x <- m ;; k" := (bind m (fun x => k))
  (at level 61, m at next level, right associativity) : js_scope.
Notation "m ;;; k" := (bind m (fun _ => k))
  (at level 61, right associativity) : js_scope.

Definition worldOf {A : Type} (o : Outcome A) : World :=
  match o with
  | Returns _ w => w
  | Throws _ w => w
  end.

Definition raised {A : Type} (o : Outcome A) : option Exn :=
  match o with
  | Returns _ _ => None
  | Throws e _ => Some e
  end.

(** [[...x]]: array spread. Spreading [undefined] is a [TypeError] (it is
    not iterable); an [HTMLCollection] spreads to the array of its elements. *)
Definition spread (x : option (list HTMLElement)) : M (list HTMLElement) :=
  match x with
  | Some l => ret l
  | None => throw TypeError
  end.

(** [el.focus()]: the element receives input focus, which the
    [useActiveElement] ref then reports. *)
Definition HTMLElement_focus (el : HTMLElement) : M unit :=
  modify (fun w =>
    mkWorld (menuState w) (menuItemsRef w) (menuButtonRef w) (Some el)
            (parentElement w) (children w) (el :: focusCalls w) (ticks w)).

(** [el?.focus()] *)
Definition optFocus (el : option HTMLElement) : M unit :=
  match el with
  | Some e => HTMLElement_focus e
  | None => ret tt
  end.

(** [nextTick(cb)]: [cb] runs after the pending render pass. *)
Definition nextTick (cb : Callback) : M unit :=
  modify (fun w => set_ticks (ticks w ++ [cb]) w).

(** ** Events, keys and render output *)

(** [Keys] of [~/types]: the [KeyboardEvent.key] strings the handlers compare
    with. The table is not part of these files, so it is a parameter of the
    handlers. *)
Record KeysEnum : Type := mkKeys {
  Space : string;
  Enter : string;
  Escape : string;
  ArrowUp : string;
  ArrowDown : string
}.

(** The values the DOM gives these keys. *)
Definition domKeys : KeysEnum :=
  mkKeys " " "Enter" "Escape" "ArrowUp" "ArrowDown".

Record KeyboardEvent : Type := mkKeyboardEvent {
  key : string;
  defaultPrevented : bool;
  propagationStopped : bool
}.

Definition keydown (k : string) : KeyboardEvent := mkKeyboardEvent k false false.

Definition preventDefault (e : KeyboardEvent) : KeyboardEvent :=
  mkKeyboardEvent (key e) true (propagationStopped e).

Definition stopPropagation (e : KeyboardEvent) : KeyboardEvent :=
  mkKeyboardEvent (key e) (defaultPrevented e) true.

Inductive MouseEvent : Type := click.

Inductive TemplateRef : Type := RefMenuItems | RefMenuButton.

Inductive Listener : Type := onKeydown | onKeyup | onClick.

Set Warnings "-register-all".

(** Render output: a text, an element with its class (empty when it has
    none), [tabindex], template ref, listeners and children, or a fragment. *)
Inductive VNode : Type :=
  | Text (s : string)
  | h (tag class : string) (tabindex : option Z) (ref : option TemplateRef)
      (on : list Listener) (kids : list VNode)
  | Fragment (kids : list VNode).

(** [slots.default && slots.default()] *)
Definition Slots : Type := option (list VNode).

Definition defaultSlot (slots : Slots) : list VNode :=
  match slots with
  | Some content => content
  | None => []
  end.

(** [interface Api]: what [Menu] provides to its descendants. A [Ref] is
    read through its [.value]; the two template refs are written only by the
    renderer. *)
Module Api.
Record t : Type := mk {
  menuState : World -> MenuState;
  menuItemsRef : World -> option HTMLElement;
  menuButtonRef : World -> option HTMLElement;
  closeMenu : M unit;
  openMenu : M unit;
  focus : FocusIndex -> M unit
}.
End Api.

Module Menu.

Local Open Scope js_scope.

(** Setup: [menuState = ref(MenuState.Closed)], both template refs empty.
    The page ([activeElement], DOM) is whatever it is at mount. *)
Definition setup (page : World) : World :=
  mkWorld Closed None None (activeElement page)
          (parentElement page) (children page) (focusCalls page) (ticks page).

Definition closeMenu : M unit := modify (set_menuState Closed).

Definition openMenu : M unit := modify (set_menuState Opened).

(** The [default:] branch of [focus]'s switch, taken by every number:
    [(menuItemsRef.value?.children[index])?.focus()]. *)
Definition focusIndex (index : Z) : M unit :=
  el <- gets (fun w => menuItemsRef w ?. (fun ul => item (children w ul) index)) ;;
  optFocus el.

(** [activeElement.value?.parentElement?.children] *)
Definition activeSiblings (w : World) : option (list HTMLElement) :=
  activeElement w ?. parentElement w ?. (fun p => Some (children w p)).

(** [focus]. The source calls itself in the [First], [Previous] and [Next]
    cases, always with a number, which no [case] label equals: the
    recursive call is the [default:] branch, [focusIndex]. *)
Definition focus (index : FocusIndex) : M unit :=
  match index with
  | Target First => focusIndex 0
  | Target Last =>
      el <- gets (fun w =>
              menuItemsRef w ?. (fun ul =>
                item (children w ul) (Z.of_nat (List.length (children w ul)) - 1))) ;;
      optFocus el
  | Target Previous =>
      siblings <- (fun w => spread (activeSiblings w) w) ;;
      active <- gets activeElement ;;
      focusIndex (indexOf siblings active - 1)
  | Target Next =>
      siblings <- (fun w => spread (activeSiblings w) w) ;;
      active <- gets activeElement ;;
      focusIndex (indexOf siblings active + 1)
  | Index n => focusIndex n
  end.

(** [const api: Api = {...}], passed to [provide(MenuContext, api)]. *)
Definition api : Api.t :=
  Api.mk menuState menuItemsRef menuButtonRef closeMenu openMenu focus.

Definition render (slots : Slots) : VNode :=
  h "div" "relative h-max" None None [] (defaultSlot slots).

End Menu.

(** [inject(MenuContext)] gives what the nearest enclosing [Menu] provided,
    [undefined] when there is none. *)
Definition useMenuContext (component : string) (provided : option Api.t) : Exn + Api.t :=
  match provided with
  | None => inl (Error ("<" ++ component ++ "> is missing a parent <Menu /> component."))
  | Some ctx => inr ctx
  end.

Module MenuButton.

Local Open Scope js_scope.

(** The first statement of setup; handlers and render function close over
    the [api] it returns. *)
Definition setup (provided : option Api.t) : Exn + Api.t :=
  useMenuContext "MenuButton" provided.

Section Handlers.
Variable Keys : KeysEnum.
Variable api : Api.t.

Definition handleKeyDown (e : KeyboardEvent) : M KeyboardEvent :=
  if (key e =? Space Keys) || (key e =? Enter Keys)
     || (key e =? ArrowDown Keys) || (key e =? ArrowUp Keys)
  then
    let e := preventDefault e in
    let e := stopPropagation e in
    Api.openMenu api ;;;
    nextTick FocusFirst ;;;
    ret e
  else ret e.

Definition handleKeyUp (e : KeyboardEvent) : M KeyboardEvent :=
  if key e =? Space Keys then ret (preventDefault e) else ret e.

Definition handleClick (e : MouseEvent) : M unit :=
  s <- gets (Api.menuState api) ;;
  if MenuState_eqb s Opened then Api.closeMenu api else Api.openMenu api.

Definition render (slots : Slots) : VNode :=
  Fragment
    [h "button" "flex h-max gap-2 py-2 font-semibold text-white" None
       (Some RefMenuButton) [onKeydown; onKeyup; onClick] (defaultSlot slots)].

End Handlers.
End MenuButton.

Module MenuItems.

Local Open Scope js_scope.

Definition setup (provided : option Api.t) : Exn + Api.t :=
  useMenuContext "MenuItems" provided.

Section Handlers.
Variable Keys : KeysEnum.
Variable api : Api.t.

Definition handleKeyDown (e : KeyboardEvent) : M KeyboardEvent :=
  if key e =? Escape Keys then
    let e := preventDefault e in
    let e := stopPropagation e in
    Api.closeMenu api ;;;
    nextTick FocusMenuItems ;;;
    ret e
  else if key e =? ArrowUp Keys then
    let e := preventDefault e in
    let e := stopPropagation e in
    Api.focus api (Target Previous) ;;;
    ret e
  else if key e =? ArrowDown Keys then
    let e := preventDefault e in
    let e := stopPropagation e in
    Api.focus api (Target Next) ;;;
    ret e
  else ret e.

(** The render function: the panel when the menu is opened, [undefined]
    (nothing) otherwise. *)
Definition render (slots : Slots) (w : World) : option VNode :=
  if MenuState_eqb (Api.menuState api w) Opened then
    Some (h "div" "absolute z-20 mt-2 animate-fadeIn rounded-xl bg-bodySecundary py-3 shadow-xl"
            None None []
            [h "ul" "" None (Some RefMenuItems) [onKeydown] (defaultSlot slots)])
  else None.

End Handlers.
End MenuItems.

Module MenuItem.

Local Open Scope js_scope.

Definition setup (provided : option Api.t) : Exn + Api.t :=
  useMenuContext "MenuItem" provided.

Section Handlers.
Variable Keys : KeysEnum.
Variable api : Api.t.

Definition handleClick (e : MouseEvent) : M unit :=
  Api.closeMenu api ;;;
  nextTick FocusMenuButton.

Definition handleKeyDown (e : KeyboardEvent) : M KeyboardEvent :=
  if (key e =? Enter Keys) || (key e =? Space Keys) then
    let e := preventDefault e in
    let e := stopPropagation e in
    Api.closeMenu api ;;;
    nextTick FocusMenuButton ;;;
    ret e
  else ret e.

Definition render (slots : Slots) : VNode :=
  h "li"
    "cursor-pointer select-none px-4 py-2 font-semibold text-white hover:bg-bodyPrimary/80 focus:bg-bodyPrimary/80 focus:outline-none"
    (Some 0%Z) None [onClick; onKeydown] (defaultSlot slots).

End Handlers.
End MenuItem.

(** ** Keydown on an item

    [MenuItems] renders its slot, the [MenuItem]s, inside the [<ul>] that
    carries its own [onKeydown]. A keydown on a focused item therefore runs
    the item's listener and then, unless that one stopped the propagation,
    the panel's listener, on the same event object. *)
Definition keydownOnItem (Keys : KeysEnum) (api : Api.t) (e : KeyboardEvent)
  : M KeyboardEvent :=
  (e <- MenuItem.handleKeyDown Keys api e ;;
   if propagationStopped e then ret e
   else MenuItems.handleKeyDown Keys api e)%js.

(** ** The render pass and the [nextTick] queue

    One page holding a [Menu] with a [MenuButton] and a [MenuItems] inside.
    A render pass re-runs the render functions and patches the DOM; a
    template ref ([ref={api.menuItemsRef}]) holds its element while the
    element is in the render output and is reset to [null] when the element
    is unmounted. The [nextTick] callbacks run after the patch, in order. *)
Module Scheduler.

Local Open Scope js_scope.

Definition runCallback (api : Api.t) (cb : Callback) : M unit :=
  match cb with
  | FocusFirst => Api.focus api (Target First)
  | FocusMenuItems => el <- gets (Api.menuItemsRef api) ;; optFocus el
  | FocusMenuButton => el <- gets (Api.menuButtonRef api) ;; optFocus el
  end.

(** Patch of the [MenuItems] subtree. [ul] is the element the renderer
    creates for [<ul ref={api.menuItemsRef}>] when it has to mount it. The
    button of [MenuButton] is rendered unconditionally: its ref stays. *)
Definition patch (slots : Slots) (ul : HTMLElement) (w : World) : World :=
  match MenuItems.render Menu.api slots w with
  | Some _ =>
      match menuItemsRef w with
      | Some _ => w
      | None => set_menuItemsRef (Some ul) w
      end
  | None => set_menuItemsRef None w
  end.

(** A callback that throws is an unhandled rejection: the next ones still
    run. *)
Definition flushCallbacks (queue : list Callback) (w : World) : World :=
  fold_left (fun w cb => worldOf (runCallback Menu.api cb w)) queue w.

Definition nextRenderPass (slots : Slots) (ul : HTMLElement) (w : World) : World :=
  let w := patch slots ul w in
  flushCallbacks (ticks w) (set_ticks [] w).

End Scheduler.

(** ** TrackCard *)

(** The fields of [statsfm.Track] the card reads. *)
Record AlbumSimple : Type := mkAlbum { image : string }.

Record ArtistSimple : Type := mkArtist { artist_id : Z; artist_name : string }.

Record Track : Type := mkTrack {
  id : Z;
  name : string;
  albums : list AlbumSimple;
  artists : list ArtistSimple
}.

(** What the card passes to the components it renders: the route parameter
    of [RouterLink], [src] and [alt] of [Image], the heading text, the
    [artists] prop of [ArtistNameListRender]. *)
Record TrackCardView : Type := mkTrackCardView {
  link_id : Z;
  image_src : string;
  image_alt : string;
  heading : string;
  artists_prop : list ArtistSimple
}.

(** [o.f] where [o] may be [undefined]: a [TypeError] when it is. *)
Definition getProp {A B : Type} (o : option A) (f : A -> B) : Exn + B :=
  match o with
  | Some x => inr (f x)
  | None => inl TypeError
  end.

(** [arr[0]] on an array: [undefined] when the array is empty. *)
Definition first {A : Type} (arr : list A) : option A := nth_error arr 0.

Definition TrackCard (track : Track) : Exn + TrackCardView :=
  match getProp (first (albums track)) image with
  | inl e => inl e
  | inr src =>
      inr (mkTrackCardView (id track) src (name track) (name track) (artists track))
  end.

(** ** Textarea *)

Module Textarea.

(** [props.value] / [props.defaultValue]:
    [string | ReadonlyArray<string> | number | undefined]. A string is a
    sequence of code units, a number an integer, an array carries its
    identity [obj] (two arrays are the same dependency only when they are the
    same object). *)
Inductive Value : Type :=
  | undefined
  | str (s : string)
  | num (n : Z)
  | arr (obj : nat) (elems : list string).

Record Props : Type := mkProps {
  label : option string;
  maxLength : option Z;
  value : Value;
  defaultValue : Value
}.

(** Truthiness: [undefined], the empty string and 0 are falsy. *)
Definition truthy (v : Value) : bool :=
  match v with
  | undefined => false
  | str s => negb (s =? "")
  | num n => negb (n =? 0)%Z
  | arr _ _ => true
  end.

(** [v.toString()] for a [v] that is not [undefined]. *)
Definition toString (v : Value) : string :=
  match v with
  | undefined => ""
  | str s => s
  | num n => DecimalString.NilZero.string_of_int (Z.to_int n)
  | arr _ elems => String.concat "," elems
  end.

(** [Object.is] on two values of the dependency array. *)
Definition Object_is (a b : Value) : bool :=
  match a, b with
  | undefined, undefined => true
  | str s, str t => (s =? t)
  | num n, num m => (n =? m)%Z
  | arr i _, arr j _ => Nat.eqb i j
  | _, _ => false
  end.

(** Hook state of one mounted [Textarea]: the [useState] cell and the
    dependency the effect last ran with. *)
Record State : Type := mkState {
  characterCount : nat;
  dep : Value
}.

(** [props.defaultValue?.toString().length ?? 0] *)
Definition initialCount (props : Props) : nat :=
  match defaultValue props with
  | undefined => 0
  | v => String.length (toString v)
  end.

(** The effect body:
    [if (props.value) setCharacterCount(props.value.toString().length)]. *)
Definition effect (props : Props) (count : nat) : nat :=
  if truthy (value props) then String.length (toString (value props)) else count.

(** First render: [useState] takes its initial value, then the effect runs. *)
Definition mount (props : Props) : State :=
  mkState (effect props (initialCount props)) (value props).

(** A later render with [props]: the effect runs only when [props.value]
    is not the dependency of the last run. *)
Definition rerender (props : Props) (st : State) : State :=
  if Object_is (value props) (dep st) then st
  else mkState (effect props (characterCount st)) (value props).

(** [handleInput]: [setCharacterCount(e.target.value.length)]. *)
Definition handleInput (target_value : string) (st : State) : State :=
  mkState (String.length target_value) (dep st).

(** The counter below the textarea:
    [{maxLength && <span className={clsx(...)}>{characterCount}/{maxLength}</span>}].
    With [maxLength] 0 the expression is the number 0, which is rendered as
    text. *)
Inductive Counter : Type :=
  | NoCounter
  | Zero
  | Span (className : string) (count : nat) (max : Z).

Definition counter (props : Props) (st : State) : Counter :=
  match maxLength props with
  | None => NoCounter
  | Some max =>
      if (max =? 0)%Z then Zero
      else Span (if (max <? Z.of_nat (characterCount st))%Z
                 then "text-end text-xs font-semibold text-red-400"
                 else "text-end text-xs")
                (characterCount st) max
  end.

End Textarea.

(** ** Vocabulary of the properties *)

(** The items of the panel: the children of the element [menuItemsRef]
    holds, none when it holds nothing. *)
Definition panelItems (w : World) : list HTMLElement :=
  match menuItemsRef w with
  | Some ul => children w ul
  | None => []
  end.

(** The element with input focus is the item at position [i] of the panel. *)
Definition focusedItemAt (w : World) (i : Z) : Prop :=
  match activeElement w, menuItemsRef w with
  | Some e, Some ul =>
      parentElement w e = Some ul /\ indexOf (children w ul) (Some e) = i
  | _, _ => False
  end.

(** The requests that resolve to an index outside the panel's items. *)
Definition outOfRange (w : World) (index : FocusIndex) : Prop :=
  match index with
  | Index n => (n < 0 \/ Z.of_nat (List.length (panelItems w)) <= n)%Z
  | Target First => panelItems w = []
  | Target Last => panelItems w = []
  | Target Previous => focusedItemAt w 0
  | Target Next => focusedItemAt w (Z.of_nat (List.length (panelItems w)) - 1)
  end.

Definition TemplateRef_eqb (a b : TemplateRef) : bool :=
  match a, b with
  | RefMenuItems, RefMenuItems | RefMenuButton, RefMenuButton => true
  | _, _ => false
  end.

(** The first node of a render output that is bound to template ref [r]. *)
Fixpoint findRef (r : TemplateRef) (v : VNode) : option VNode :=
  let fix among (l : list VNode) : option VNode :=
    match l with
    | [] => None
    | k :: rest =>
        match findRef r k with
        | Some hit => Some hit
        | None => among rest
        end
    end in
  match v with
  | h _ _ _ (Some r') _ kids => if TemplateRef_eqb r' r then Some v else among kids
  | h _ _ _ None _ kids => among kids
  | Fragment kids => among kids
  | Text _ => None
  end.

(** The item list in a render output: the children of the element bound to
    [menuItemsRef]. *)
Definition itemList (v : VNode) : option (list VNode) :=
  match findRef RefMenuItems v with
  | Some (h _ _ _ _ _ kids) => Some kids
  | _ => None
  end.

Definition toggle (s : MenuState) : MenuState :=
  match s with
  | Opened => Closed
  | Closed => Opened
  end.

(** One pointer activation of the trigger. *)
Definition activate (w : World) : World :=
  worldOf (MenuButton.handleClick Menu.api click w).

(** [n] pointer activations in a row. *)
Definition activations (n : nat) (w : World) : World := Nat.iter n activate w.

(** The states seen from the start up to the [n]-th activation. *)
Definition trace (n : nat) (w : World) : list MenuState :=
  map (fun k => menuState (activations k w)) (seq 0 (S n)).

(** The alternating sequence [from; toggle from; from; ...] of length [n]. *)
Fixpoint alternating (from : MenuState) (n : nat) : list MenuState :=
  match n with
  | O => []
  | S m => from :: alternating (toggle from) m
  end.

(** The element [menuItemsRef] holds once the panel is rendered: the one it
    holds already, else the [<ul>] the renderer mounts. *)
Definition panelAfterRender (ul : HTMLElement) (w : World) : HTMLElement :=
  match menuItemsRef w with
  | Some mounted => mounted
  | None => ul
  end.

(** The five entries of a [Keys] table are pairwise different strings. *)
Definition distinctKeys (K : KeysEnum) : bool :=
  negb (Space K =? Enter K) && negb (Space K =? Escape K)
  && negb (Space K =? ArrowUp K) && negb (Space K =? ArrowDown K)
  && negb (Enter K =? Escape K) && negb (Enter K =? ArrowUp K)
  && negb (Enter K =? ArrowDown K) && negb (Escape K =? ArrowUp K)
  && negb (Escape K =? ArrowDown K) && negb (ArrowUp K =? ArrowDown K).

(** ** Sample page

    [html] 10 > [body] 11 > the menu's [div] 12 > the button 0 and the panel
    [div] 5 > [ul] 1 > three items 2, 3, 4. *)
Module Sample.

Definition parent (e : HTMLElement) : option HTMLElement :=
  match e with
  | 2 | 3 | 4 => Some 1
  | 1 => Some 5
  | 0 | 5 => Some 12
  | 12 => Some 11
  | 11 => Some 10
  | _ => None
  end.

Definition kids (e : HTMLElement) : list HTMLElement :=
  match e with
  | 1 => [2; 3; 4]
  | 5 => [1]
  | 12 => [0; 5]
  | 11 => [12]
  | 10 => [11]
  | _ => []
  end.

(** The menu is opened and item 2, the first one, has focus. *)
Definition opened : World :=
  mkWorld Opened (Some 1) (Some 0) (Some 2) parent kids [] [].

(** The menu is opened and the last item has focus. *)
Definition opened_at_last : World :=
  mkWorld Opened (Some 1) (Some 0) (Some 4) parent kids [] [].

(** The menu is opened, the hook has recorded no focused element. *)
Definition unfocused : World :=
  mkWorld Opened (Some 1) (Some 0) None parent kids [] [].

(** The menu is opened, the document element (no parent) is the active one. *)
Definition root_active : World :=
  mkWorld Opened (Some 1) (Some 0) (Some 10) parent kids [] [].

(** The menu is opened and the trigger's button has focus. *)
Definition trigger_focused : World :=
  mkWorld Opened (Some 1) (Some 0) (Some 0) parent kids [] [].

(** Before anything is rendered. *)
Definition blank : World :=
  mkWorld Closed None None None parent kids [] [].

(** The slot content of the panel: three items. *)
Definition items : Slots :=
  Some [MenuItem.render (Some [Text "Profile"]);
        MenuItem.render (Some [Text "Settings"]);
        MenuItem.render (Some [Text "Log out"])].

(** A textarea limited to 10 characters, controlled with the text "abc". *)
Definition typed : Textarea.Props :=
  Textarea.mkProps None (Some 10%Z) (Textarea.str "abc") Textarea.undefined.

(** The same textarea after its value has been cleared. *)
Definition cleared : Textarea.Props :=
  Textarea.mkProps None (Some 10%Z) (Textarea.str "") Textarea.undefined.

End Sample.

(** * Properties *)

(** ** Array and collection facts *)

Lemma item_out_of_range (collection : list HTMLElement) (index : Z) :
  (index < 0 \/ Z.of_nat (List.length collection) <= index)%Z ->
  item collection index = None.
Proof.
  intros Hout. unfold item.
  destruct (Z.ltb_spec index 0) as [Hneg | Hpos]; [reflexivity |].
  apply nth_error_None. lia.
Qed.

Lemma item_in_range (collection : list HTMLElement) (index : Z) :
  (0 <= index < Z.of_nat (List.length collection))%Z ->
  exists el, item collection index = Some el.
Proof.
  intros Hin. unfold item.
  destruct (Z.ltb_spec index 0) as [Hneg | Hpos]; [lia |].
  destruct (nth_error collection (Z.to_nat index)) as [el |] eqn:Hnth.
  - now exists el.
  - apply nth_error_None in Hnth. lia.
Qed.

Lemma indexOf_from_bounds (arr : list HTMLElement) (x : HTMLElement) (i : Z) :
  (indexOf_from i arr x = -1 \/
   i <= indexOf_from i arr x < i + Z.of_nat (List.length arr))%Z.
Proof.
  revert i. induction arr as [| y rest IH]; intros i; simpl.
  - now left.
  - destruct (Nat.eqb y x).
    + right. lia.
    + destruct (IH (i + 1)%Z) as [Hnone | Hin]; [now left | right; lia].
Qed.

(** ** The [focus] operation *)

Lemma focusIndex_out_of_range (w : World) (n : Z) :
  (n < 0 \/ Z.of_nat (List.length (panelItems w)) <= n)%Z ->
  Menu.focusIndex n w = Returns tt w.
Proof.
  intros Hout. unfold Menu.focusIndex, bind, gets, panelItems in *.
  destruct (menuItemsRef w) as [ul |]; simpl; [| reflexivity].
  now rewrite (item_out_of_range _ _ Hout).
Qed.

Lemma focusIndex_in_range (w : World) (n : Z) (ul el : HTMLElement) :
  menuItemsRef w = Some ul ->
  item (children w ul) n = Some el ->
  Menu.focusIndex n w = HTMLElement_focus el w.
Proof.
  intros Href Hitem. unfold Menu.focusIndex, bind, gets.
  now rewrite Href; simpl; rewrite Hitem.
Qed.

Lemma focusIndex_never_throws (w : World) (n : Z) :
  raised (Menu.focusIndex n w) = None.
Proof.
  unfold Menu.focusIndex, bind, gets.
  destruct (menuItemsRef w ?. _) as [el |]; reflexivity.
Qed.

(** [focus] throws exactly in the [Previous] and [Next] cases when
    [activeElement.value?.parentElement?.children] is [undefined]. *)
Lemma focus_throws_iff (w : World) (index : FocusIndex) :
  raised (Menu.focus index w) = Some TypeError <->
  (index = Target Previous \/ index = Target Next) /\ Menu.activeSiblings w = None.
Proof.
  destruct index as [[| | |] | n]; simpl.
  - rewrite focusIndex_never_throws. split; [discriminate | intros [[H | H] _]; discriminate].
  - unfold bind. destruct (Menu.activeSiblings w) as [sib |]; simpl.
    + rewrite focusIndex_never_throws.
      split; [discriminate | intros [_ H]; discriminate].
    + split; [intros _; split; [now left | reflexivity] | reflexivity].
  - unfold bind. destruct (Menu.activeSiblings w) as [sib |]; simpl.
    + rewrite focusIndex_never_throws.
      split; [discriminate | intros [_ H]; discriminate].
    + split; [intros _; split; [now right | reflexivity] | reflexivity].
  - unfold bind, gets. destruct (menuItemsRef w ?. _); simpl;
      (split; [discriminate | intros [[H | H] _]; discriminate]).
  - rewrite focusIndex_never_throws. split; [discriminate | intros [[H | H] _]; discriminate].
Qed.

Lemma activeSiblings_None_iff (w : World) :
  Menu.activeSiblings w = None <->
  activeElement w = None \/
  exists e, activeElement w = Some e /\ parentElement w e = None.
Proof.
  unfold Menu.activeSiblings.
  destruct (activeElement w) as [e |]; simpl.
  - destruct (parentElement w e) as [p |] eqn:Hp; simpl.
    + split; [discriminate |].
      intros [H | [e' [He' Hnone]]]; [discriminate |].
      injection He' as <-. congruence.
    + split; [| reflexivity]. intros _. right. now exists e.
  - split; [now left | reflexivity].
Qed.

(** C1 (defect of the code). The claim: [focus] completes without raising
    for every target and every state, also when no element holds input focus
    or the focused element has no parent. The code: in the [Previous] and
    [Next] cases the optional chain [activeElement.value?.parentElement?.children]
    is [undefined] in exactly these two situations, and spreading it into an
    array throws a [TypeError]. Evaluated on the sample page with no recorded
    active element, and with the parentless document element active. *)
Theorem focus_Previous_Next_throw_TypeError :
  raised (Menu.focus (Target Previous) Sample.unfocused) = Some TypeError /\
  raised (Menu.focus (Target Next) Sample.unfocused) = Some TypeError /\
  raised (Menu.focus (Target Previous) Sample.root_active) = Some TypeError /\
  raised (Menu.focus (Target Next) Sample.root_active) = Some TypeError.
Proof. repeat split; reflexivity. Qed.

(** The other targets never throw, whatever the state. *)
Lemma focus_First_Last_Index_never_throw (w : World) (index : FocusIndex) :
  index <> Target Previous -> index <> Target Next ->
  raised (Menu.focus index w) = None.
Proof.
  intros Hp Hn.
  destruct (raised (Menu.focus index w)) as [[| msg] |] eqn:Hr; [| | reflexivity].
  - apply focus_throws_iff in Hr. destruct Hr as [[H | H] _]; contradiction.
  - exfalso. destruct index as [[| | |] | n]; simpl in Hr;
      try contradiction; try (rewrite focusIndex_never_throws in Hr; discriminate).
    unfold bind, gets in Hr. destruct (menuItemsRef w ?. _); discriminate.
Qed.

Lemma focusedItemAt_siblings (w : World) (i : Z) :
  focusedItemAt w i ->
  Menu.activeSiblings w = Some (panelItems w) /\
  indexOf (panelItems w) (activeElement w) = i.
Proof.
  unfold focusedItemAt, Menu.activeSiblings, panelItems.
  destruct (activeElement w) as [e |]; [| contradiction].
  destruct (menuItemsRef w) as [ul |]; [| contradiction].
  intros [Hparent Hidx]. simpl. rewrite Hparent. simpl. now split.
Qed.

(** C4. A request that resolves to an index outside the panel's items
    (an explicit index below 0 or from the item count on, [Previous] with the
    focused item at index 0, [Next] with the focused item at the last index,
    [First] or [Last] on a panel without items) returns normally and leaves
    the whole state as it was: no [focus()] call is made, the active element
    is the same, nothing wraps around. *)
Theorem focus_out_of_range_is_noop (w : World) (index : FocusIndex) :
  outOfRange w index ->
  Menu.focus index w = Returns tt w.
Proof.
  destruct index as [[| | |] | n]; simpl; intros Hout.
  - apply focusIndex_out_of_range. rewrite Hout. simpl. lia.
  - destruct (focusedItemAt_siblings _ _ Hout) as [Hsib Hidx].
    unfold bind, gets. rewrite Hsib. simpl. rewrite Hidx.
    apply focusIndex_out_of_range. lia.
  - destruct (focusedItemAt_siblings _ _ Hout) as [Hsib Hidx].
    unfold bind, gets. rewrite Hsib. simpl. rewrite Hidx.
    apply focusIndex_out_of_range. lia.
  - unfold bind, gets, panelItems in *.
    destruct (menuItemsRef w) as [ul |]; simpl; [| reflexivity].
    now rewrite Hout.
  - now apply focusIndex_out_of_range.
Qed.

Lemma focus_out_of_range_is_noop_witness :
  outOfRange Sample.opened (Target Previous) /\
  Menu.focus (Target Previous) Sample.opened = Returns tt Sample.opened.
Proof.
  split; [| apply focus_out_of_range_is_noop]; simpl; split; reflexivity.
Defined.

(** The same on the remaining shapes of request. *)
Example focus_Next_at_last_item :
  Menu.focus (Target Next) Sample.opened_at_last = Returns tt Sample.opened_at_last.
Proof. reflexivity. Qed.

Example focus_explicit_index_past_end :
  Menu.focus (Index 3) Sample.opened = Returns tt Sample.opened.
Proof. reflexivity. Qed.

Example focus_First_without_items :
  Menu.focus (Target First) Sample.blank = Returns tt Sample.blank.
Proof. reflexivity. Qed.

(** In range, [Next] moves focus to the following item. *)
Example focus_Next_in_range :
  activeElement (worldOf (Menu.focus (Target Next) Sample.opened)) = Some 3.
Proof. reflexivity. Qed.

(** ** The panel's render gate *)

(** C2. The render function of the panel produces nothing exactly when the
    menu state is [Closed], and produces a tree holding the item list (the
    slot content, under the element bound to [menuItemsRef]) exactly when it
    is [Opened]. *)
Theorem MenuItems_rendered_iff_Opened (slots : Slots) (w : World) :
  (MenuItems.render Menu.api slots w = None <-> menuState w = Closed) /\
  ((exists panel, MenuItems.render Menu.api slots w = Some panel /\
                  itemList panel = Some (defaultSlot slots))
   <-> menuState w = Opened).
Proof.
  unfold MenuItems.render. simpl.
  destruct (menuState w); simpl; split; split;
    try discriminate; try reflexivity.
  - intros _. eexists. split; reflexivity.
  - intros [panel [Habs _]]. discriminate.
Qed.

(** ** The trigger's toggle *)

Lemma handleClick_toggles (w : World) :
  MenuButton.handleClick Menu.api click w = Returns tt (set_menuState (toggle (menuState w)) w).
Proof.
  unfold MenuButton.handleClick, bind, gets. simpl.
  destruct (menuState w); reflexivity.
Qed.

Lemma activate_menuState (w : World) :
  menuState (activate w) = toggle (menuState w).
Proof. unfold activate. now rewrite handleClick_toggles. Qed.

Lemma activations_parity (n : nat) (w : World) :
  menuState (activations n w) =
  if Nat.even n then menuState w else toggle (menuState w).
Proof.
  induction n as [| n IH].
  - reflexivity.
  - change (activations (S n) w) with (activate (activations n w)).
    rewrite activate_menuState, IH, Nat.even_succ, <- Nat.negb_even.
    destruct (Nat.even n), (menuState w); reflexivity.
Qed.

Lemma trace_from (n start : nat) (w : World) :
  map (fun k => menuState (activations k w)) (seq start n) =
  alternating (menuState (activations start w)) n.
Proof.
  revert start. induction n as [| n IH]; intros start; simpl.
  - reflexivity.
  - f_equal. rewrite IH. f_equal.
    change (activations (S start) w) with (activate (activations start w)).
    apply activate_menuState.
Qed.

(** C3. Starting from the state [Menu]'s setup creates ([Closed]), the trace
    of any number of pointer activations of the trigger is
    [Closed; Opened; Closed; Opened; ...]: the state after [n] activations
    is [Closed] for even [n] and [Opened] for odd [n]. Every activation
    returns normally and maps [Opened] to [Closed] and [Closed] to [Opened],
    so from every state the next activation leads to a different one: no
    state is terminal. *)
Theorem trigger_activations_alternate (page : World) (n : nat) :
  menuState (Menu.setup page) = Closed /\
  trace n (Menu.setup page) = alternating Closed (S n) /\
  menuState (activations n (Menu.setup page)) = (if Nat.even n then Closed else Opened) /\
  (forall w, raised (MenuButton.handleClick Menu.api click w) = None /\
             menuState (activate w) = toggle (menuState w) /\
             menuState (activate w) <> menuState w).
Proof.
  split; [reflexivity |]. split; [| split].
  - unfold trace. now rewrite trace_from.
  - now rewrite activations_parity.
  - intros w. rewrite handleClick_toggles, activate_menuState.
    repeat split. destruct (menuState w); discriminate.
Qed.

Example trace_of_four_activations :
  trace 4 (Menu.setup Sample.opened) = [Closed; Opened; Closed; Opened; Closed].
Proof. reflexivity. Qed.

(** ** Key handling of the trigger *)

Lemma eqb_of_eq (a b : string) : a = b -> (a =? b) = true.
Proof. intros ->. apply String.eqb_refl. Qed.

(** C8. For each of the keys Enter, Space, Down-arrow and Up-arrow on the
    trigger (in any state, the closed one in particular) the handler returns
    normally with the event's default prevented, the menu state is [Opened],
    and the request [focus(Focus.First)] is appended to the [nextTick] queue:
    no [focus()] call has been made and the active element is unchanged when
    the handler returns. *)
Theorem MenuButton_key_opens_and_defers_focus_First
  (Keys : KeysEnum) (e : KeyboardEvent) (w : World) :
  key e = Enter Keys \/ key e = Space Keys \/
  key e = ArrowDown Keys \/ key e = ArrowUp Keys ->
  let w' := set_ticks (ticks w ++ [FocusFirst]) (set_menuState Opened w) in
  MenuButton.handleKeyDown Keys Menu.api e w
    = Returns (stopPropagation (preventDefault e)) w' /\
  defaultPrevented (stopPropagation (preventDefault e)) = true /\
  menuState w' = Opened /\
  ticks w' = (ticks w ++ [FocusFirst])%list /\
  focusCalls w' = focusCalls w /\
  activeElement w' = activeElement w.
Proof.
  intros Hkey. simpl. repeat split.
  unfold MenuButton.handleKeyDown.
  assert (Hcond : (key e =? Space Keys) || (key e =? Enter Keys)
                  || (key e =? ArrowDown Keys) || (key e =? ArrowUp Keys) = true).
  { destruct Hkey as [H | [H | [H | H]]]; rewrite (eqb_of_eq _ _ H);
      rewrite ?orb_true_r; reflexivity. }
  now rewrite Hcond.
Qed.

Lemma MenuButton_key_opens_and_defers_focus_First_witness :
  key (keydown "ArrowDown") = ArrowDown domKeys /\
  menuState Sample.blank = Closed /\
  worldOf (MenuButton.handleKeyDown domKeys Menu.api (keydown "ArrowDown") Sample.blank)
    = set_ticks [FocusFirst] (set_menuState Opened Sample.blank).
Proof.
  split; [reflexivity | split; [reflexivity |]].
  destruct (MenuButton_key_opens_and_defers_focus_First
              domKeys (keydown "ArrowDown") Sample.blank) as [Hrun _].
  - right. right. left. reflexivity.
  - rewrite Hrun. reflexivity.
Defined.

(** The deferred request lands once the panel is mounted: after the render
    pass the first item has focus. *)
Example key_open_then_render_pass_focuses_first_item :
  let opened := worldOf (MenuButton.handleKeyDown domKeys Menu.api
                           (keydown "Enter") Sample.blank) in
  let final := Scheduler.nextRenderPass Sample.items 1 opened in
  focusCalls opened = [] /\
  menuState final = Opened /\ menuItemsRef final = Some 1 /\
  activeElement final = Some 2 /\ focusCalls final = [2].
Proof. repeat split; reflexivity. Qed.

(** ** The [nextTick] callbacks *)

Lemma optFocus_frame (el : option HTMLElement) (w : World) :
  let w' := worldOf (optFocus el w) in
  raised (optFocus el w) = None /\
  menuState w' = menuState w /\ menuItemsRef w' = menuItemsRef w /\
  menuButtonRef w' = menuButtonRef w /\ ticks w' = ticks w.
Proof. destruct el; repeat split; reflexivity. Qed.

Lemma runCallback_frame (cb : Callback) (w : World) :
  let w' := worldOf (Scheduler.runCallback Menu.api cb w) in
  menuState w' = menuState w /\ menuItemsRef w' = menuItemsRef w /\
  menuButtonRef w' = menuButtonRef w.
Proof.
  destruct cb; simpl; unfold Menu.focusIndex, bind, gets;
    match goal with
    | |- context [optFocus ?el ?w0] =>
        destruct (optFocus_frame el w0) as (_ & Hs & Hi & Hb & _);
        destruct (optFocus el w0); simpl in *; auto
    end.
Qed.

Lemma flushCallbacks_frame (queue : list Callback) (w : World) :
  let w' := Scheduler.flushCallbacks queue w in
  menuState w' = menuState w /\ menuItemsRef w' = menuItemsRef w /\
  menuButtonRef w' = menuButtonRef w.
Proof.
  revert w. induction queue as [| cb rest IH]; intros w; simpl.
  - auto.
  - destruct (IH (worldOf (Scheduler.runCallback Menu.api cb w))) as (Hs & Hi & Hb).
    destruct (runCallback_frame cb w) as (Hs' & Hi' & Hb').
    unfold Scheduler.flushCallbacks in *. simpl in *.
    rewrite Hs, Hi, Hb. auto.
Qed.

Lemma flushCallbacks_snoc (queue : list Callback) (cb : Callback) (w : World) :
  Scheduler.flushCallbacks (queue ++ [cb]) w =
  worldOf (Scheduler.runCallback Menu.api cb (Scheduler.flushCallbacks queue w)).
Proof. unfold Scheduler.flushCallbacks. now rewrite fold_left_app. Qed.

Lemma closeMenu_when_Closed (w : World) :
  menuState w = Closed -> Menu.closeMenu w = Returns tt w.
Proof.
  destruct w as [s i b a p c f t]. simpl. intros ->. reflexivity.
Qed.

(** ** Activation of an item *)

(** C6. With the trigger mounted ([menuButtonRef] holds its button [b]),
    activating an item by pointer or by the Enter or Space key returns
    normally, leaves the menu state [Closed] whatever it was (closing a
    closed menu changes nothing) and only queues the focus request: no
    [focus()] call is made by the handler. After the next render pass the
    state is still [Closed] and the last element to have received focus, the
    active one, is the trigger's button. *)
Theorem MenuItem_activation_closes_then_focuses_trigger
  (Keys : KeysEnum) (e : KeyboardEvent) (w : World) (b : HTMLElement)
  (slots : Slots) (ul : HTMLElement) :
  menuButtonRef w = Some b ->
  key e = Enter Keys \/ key e = Space Keys ->
  let closed := set_ticks (ticks w ++ [FocusMenuButton]) (set_menuState Closed w) in
  let final := Scheduler.nextRenderPass slots ul closed in
  MenuItem.handleClick Menu.api click w = Returns tt closed /\
  MenuItem.handleKeyDown Keys Menu.api e w
    = Returns (stopPropagation (preventDefault e)) closed /\
  menuState closed = Closed /\
  focusCalls closed = focusCalls w /\
  (menuState w = Closed -> Menu.closeMenu w = Returns tt w) /\
  menuState final = Closed /\
  activeElement final = Some b /\
  hd_error (focusCalls final) = Some b.
Proof.
  intros Hbutton Hkey closed final.
  set (flushed := Scheduler.flushCallbacks (ticks w)
                    (set_ticks [] (set_menuItemsRef None closed))).
  destruct (flushCallbacks_frame (ticks w)
              (set_ticks [] (set_menuItemsRef None closed))) as (Hs & _ & Hb).
  fold flushed in Hs, Hb. simpl in Hs, Hb.
  assert (Hfinal : final = worldOf (optFocus (menuButtonRef flushed) flushed)).
  { unfold final, Scheduler.nextRenderPass, Scheduler.patch, MenuItems.render.
    simpl. now rewrite flushCallbacks_snoc. }
  rewrite Hb, Hbutton in Hfinal.
  split; [reflexivity |]. split.
  { unfold MenuItem.handleKeyDown.
    assert (Hcond : (key e =? Enter Keys) || (key e =? Space Keys) = true).
    { destruct Hkey as [H | H]; rewrite (eqb_of_eq _ _ H);
        rewrite ?orb_true_r; reflexivity. }
    now rewrite Hcond. }
  split; [reflexivity |]. split; [reflexivity |].
  split; [apply closeMenu_when_Closed |].
  rewrite Hfinal. simpl. repeat split. exact Hs.
Qed.

Lemma MenuItem_activation_closes_then_focuses_trigger_witness :
  menuButtonRef Sample.opened = Some 0 /\
  key (keydown "Enter") = Enter domKeys /\
  activeElement
    (Scheduler.nextRenderPass Sample.items 1
       (worldOf (MenuItem.handleClick Menu.api click Sample.opened))) = Some 0.
Proof.
  split; [reflexivity | split; [reflexivity |]].
  destruct (MenuItem_activation_closes_then_focuses_trigger
              domKeys (keydown "Enter") Sample.opened 0 Sample.items 1)
    as (Hclick & _ & _ & _ & _ & _ & Hactive & _).
  - reflexivity.
  - left. reflexivity.
  - rewrite Hclick. exact Hactive.
Defined.

(** ** Escape on the panel *)

(** What the handler itself does on Escape: default prevented, propagation
    stopped, menu closed, the focus of [menuItemsRef] queued. *)
Lemma MenuItems_Escape_handler (Keys : KeysEnum) (e : KeyboardEvent) (w : World) :
  key e = Escape Keys ->
  MenuItems.handleKeyDown Keys Menu.api e w
    = Returns (stopPropagation (preventDefault e))
              (set_ticks (ticks w ++ [FocusMenuItems]) (set_menuState Closed w)).
Proof.
  intros Hkey. unfold MenuItems.handleKeyDown.
  now rewrite (eqb_of_eq _ _ Hkey).
Qed.

(** With nothing else queued, the render pass after Escape unmounts the
    panel, which resets [menuItemsRef]; the queued callback then finds it
    empty and calls no [focus()]. *)
Lemma Escape_then_render_pass_focuses_nothing
  (Keys : KeysEnum) (e : KeyboardEvent) (w : World) (slots : Slots) (ul : HTMLElement) :
  key e = Escape Keys ->
  ticks w = [] ->
  let final := Scheduler.nextRenderPass slots ul
                 (worldOf (MenuItems.handleKeyDown Keys Menu.api e w)) in
  menuState final = Closed /\ menuItemsRef final = None /\
  focusCalls final = focusCalls w /\ activeElement final = activeElement w.
Proof.
  intros Hkey Hq. rewrite (MenuItems_Escape_handler _ _ _ Hkey), Hq.
  repeat split.
Qed.

(** C5 (defect of the code). The claim: after Escape on the mounted panel
    and the next render pass, the state is [Closed] and the panel's root
    holds input focus. The code closes the menu and queues
    [api.menuItemsRef.value?.focus()]; the render pass that comes first
    renders nothing for the closed panel, so the element is unmounted and the
    ref is empty when the callback runs. On the sample page, opened with its
    first item focused: the state ends [Closed], but no [focus()] call was
    made and the panel's element (1) is not the active one. *)
Theorem Escape_does_not_focus_panel_root :
  let closed := worldOf (MenuItems.handleKeyDown domKeys Menu.api
                           (keydown "Escape") Sample.opened) in
  let final := Scheduler.nextRenderPass Sample.items 1 closed in
  menuItemsRef Sample.opened = Some 1 /\
  menuState closed = Closed /\
  ticks closed = [FocusMenuItems] /\
  MenuItems.render Menu.api Sample.items closed = None /\
  menuState final = Closed /\
  menuItemsRef final = None /\
  focusCalls final = [] /\
  activeElement final <> Some 1.
Proof. repeat split; discriminate. Qed.

(** ** Mounting outside of a [Menu] *)

(** Each descendant's setup throws when no [Menu] encloses it, and the
    message names the descendant. *)
Lemma setup_without_Menu_throws :
  MenuButton.setup None
    = inl (Error "<MenuButton> is missing a parent <Menu /> component.") /\
  MenuItems.setup None
    = inl (Error "<MenuItems> is missing a parent <Menu /> component.") /\
  MenuItem.setup None
    = inl (Error "<MenuItem> is missing a parent <Menu /> component.").
Proof. repeat split. Qed.

Lemma setup_inside_Menu_returns (api : Api.t) :
  MenuButton.setup (Some api) = inr api /\
  MenuItems.setup (Some api) = inr api /\
  MenuItem.setup (Some api) = inr api.
Proof. repeat split. Qed.

(** C7 (defect of the code, the one of C1). The claim: a descendant mounted
    outside of a [Menu] is the only error condition, raised at mount with a
    message naming the descendant, and no other operation is fatal. The
    mount part holds: each setup throws its own message before anything is
    rendered. But with the panel properly mounted inside a [Menu], Up-arrow
    and Down-arrow on it throw a [TypeError] when no active element is
    recorded, through [focus(Previous)] and [focus(Next)]. *)
Theorem missing_Menu_is_not_the_only_error :
  MenuButton.setup None
    = inl (Error "<MenuButton> is missing a parent <Menu /> component.") /\
  MenuItems.setup None
    = inl (Error "<MenuItems> is missing a parent <Menu /> component.") /\
  MenuItem.setup None
    = inl (Error "<MenuItem> is missing a parent <Menu /> component.") /\
  MenuItems.setup (Some Menu.api) = inr Menu.api /\
  raised (MenuItems.handleKeyDown domKeys Menu.api (keydown "ArrowUp") Sample.unfocused)
    = Some TypeError /\
  raised (MenuItems.handleKeyDown domKeys Menu.api (keydown "ArrowDown") Sample.unfocused)
    = Some TypeError.
Proof. repeat split. Qed.

(** ** TrackCard and its album image *)

(** C10. [TrackCard] reads [track.albums[0].image] with no guard: it renders
    exactly for the tracks with a non-empty [albums] array, with the first
    album's image as the [src] of the image. For a track without albums the
    index-0 access yields no element and reading [image] from it throws. *)
Theorem TrackCard_requires_an_album (track : Track) :
  (first (albums track) = None <-> albums track = []) /\
  (TrackCard track = inl TypeError <-> albums track = []) /\
  ((exists view, TrackCard track = inr view /\
                 Some (image_src view) = option_map image (first (albums track)))
   <-> albums track <> []).
Proof.
  unfold TrackCard, first. destruct (albums track) as [| album rest]; simpl.
  - repeat split; try discriminate; try reflexivity.
    + intros [view [Habs _]]. discriminate.
    + intros Hne. now contradiction Hne.
  - repeat split; try discriminate.
    intros _. eexists. split; reflexivity.
Qed.

Example TrackCard_without_albums :
  TrackCard (mkTrack 7 "Intro" [] [mkArtist 1 "Someone"]) = inl TypeError.
Proof. reflexivity. Qed.

Example TrackCard_with_album :
  TrackCard (mkTrack 7 "Intro" [mkAlbum "cover.png"; mkAlbum "other.png"] [])
  = inr (mkTrackCardView 7 "cover.png" "Intro" "Intro" []).
Proof. reflexivity. Qed.

(** ** Textarea: the character count and a controlled value *)

Module TextareaFacts.
Import Textarea.

Lemma falsy_values (v : Value) :
  truthy v = false <-> v = undefined \/ v = str "" \/ v = num 0.
Proof.
  destruct v as [| s | n | obj elems]; simpl.
  - split; auto.
  - rewrite negb_false_iff, String.eqb_eq.
    split; [intros ->; auto | intros [H | [H | H]]; congruence].
  - rewrite negb_false_iff, Z.eqb_eq.
    split; [intros ->; auto | intros [H | [H | H]]; congruence].
  - split; [discriminate | intros [H | [H | H]]; discriminate].
Qed.

(** C9. The effect that follows the [value] prop updates the count only for
    a truthy value. When [value] is falsy (the empty string, in particular)
    the effect body leaves [characterCount] as it is, so a render with such
    a value, whatever the value was before, keeps the count and the counter
    that is displayed. *)
Theorem falsy_value_keeps_characterCount (props : Props) (st : State) :
  truthy (value props) = false ->
  effect props (characterCount st) = characterCount st /\
  characterCount (rerender props st) = characterCount st /\
  counter props (rerender props st) = counter props st.
Proof.
  intros Hfalsy.
  assert (Heffect : effect props (characterCount st) = characterCount st).
  { unfold effect. now rewrite Hfalsy. }
  assert (Hcount : characterCount (rerender props st) = characterCount st).
  { unfold rerender. destruct (Object_is (value props) (dep st)); [reflexivity |].
    simpl. exact Heffect. }
  repeat split; try assumption.
  unfold counter. now rewrite Hcount.
Qed.

Lemma falsy_value_keeps_characterCount_witness :
  truthy (value Sample.cleared) = false /\
  characterCount (rerender Sample.cleared (mount Sample.typed)) = characterCount (mount Sample.typed).
Proof.
  split; [reflexivity |].
  apply (falsy_value_keeps_characterCount Sample.cleared (mount Sample.typed)). reflexivity.
Defined.

(** The count goes stale: the cleared textarea still displays 3/10. *)
Example cleared_value_displays_stale_count :
  counter Sample.typed (mount Sample.typed) = Span "text-end text-xs" 3 10 /\
  counter Sample.cleared (rerender Sample.cleared (mount Sample.typed)) = Span "text-end text-xs" 3 10 /\
  String.length (toString (value Sample.cleared)) = 0.
Proof. repeat split. Qed.

(** A truthy value does update the count. *)
Lemma truthy_value_sets_characterCount (props : Props) (st : State) :
  truthy (value props) = true ->
  Object_is (value props) (dep st) = false ->
  characterCount (rerender props st) = String.length (toString (value props)).
Proof.
  intros Htruthy Hchanged. unfold rerender, effect.
  now rewrite Hchanged, Htruthy.
Qed.

End TextareaFacts.

(** * Further properties of the code *)

(** ** What [focus] can do to the page *)

Lemma item_In (collection : list HTMLElement) (index : Z) (el : HTMLElement) :
  item collection index = Some el -> In el collection.
Proof.
  unfold item. destruct (index <? 0)%Z; [discriminate |].
  apply nth_error_In.
Qed.

Lemma focusIndex_at_item (w : World) (n : Z) (el : HTMLElement) :
  item (panelItems w) n = Some el ->
  Menu.focusIndex n w = HTMLElement_focus el w.
Proof.
  unfold panelItems. destruct (menuItemsRef w) as [ul |] eqn:Href; intros Hitem.
  - now apply (focusIndex_in_range w n ul el).
  - apply item_In in Hitem. contradiction.
Qed.

Lemma focusIndex_effect (w : World) (n : Z) :
  Menu.focusIndex n w = Returns tt w \/
  exists el, In el (panelItems w) /\ Menu.focusIndex n w = HTMLElement_focus el w.
Proof.
  destruct (item (panelItems w) n) as [el |] eqn:Hitem.
  - right. exists el. split; [now apply (item_In _ n) | now apply focusIndex_at_item].
  - left. unfold Menu.focusIndex, bind, gets, panelItems in *.
    destruct (menuItemsRef w) as [ul |]; simpl; [now rewrite Hitem | reflexivity].
Qed.

(** Every run of [focus] is one of three: it throws before touching
    anything, it returns without touching anything, or it focuses one item
    of the panel. *)
Lemma focus_effect (w : World) (index : FocusIndex) :
  Menu.focus index w = Throws TypeError w \/
  Menu.focus index w = Returns tt w \/
  exists el, In el (panelItems w) /\ Menu.focus index w = HTMLElement_focus el w.
Proof.
  destruct index as [[| | |] | n]; simpl.
  - right. apply focusIndex_effect.
  - unfold bind, gets. destruct (Menu.activeSiblings w) as [sib |]; simpl.
    + right. apply focusIndex_effect.
    + now left.
  - unfold bind, gets. destruct (Menu.activeSiblings w) as [sib |]; simpl.
    + right. apply focusIndex_effect.
    + now left.
  - right. unfold bind, gets, panelItems.
    destruct (menuItemsRef w) as [ul |]; simpl; [| now left].
    destruct (item (children w ul) _) as [el |] eqn:Hitem; simpl.
    + right. exists el. split; [now apply item_In in Hitem | reflexivity].
    + now left.
  - right. apply focusIndex_effect.
Qed.

(** X1. Whatever the target and the state, and also when it throws,
    [focus] leaves the menu state, both template refs, the [nextTick] queue
    and the DOM tree as they were: it never opens or closes the menu and
    never schedules anything. *)
Theorem focus_keeps_menu_and_queue (w : World) (index : FocusIndex) :
  let w' := worldOf (Menu.focus index w) in
  menuState w' = menuState w /\
  menuItemsRef w' = menuItemsRef w /\
  menuButtonRef w' = menuButtonRef w /\
  ticks w' = ticks w /\
  parentElement w' = parentElement w /\
  children w' = children w.
Proof.
  destruct (focus_effect w index) as [H | [H | [el [_ H]]]];
    rewrite H; simpl; repeat split.
Qed.


(** ** Where [focus] lands *)

Lemma nth_error_last (l : list HTMLElement) (d : HTMLElement) :
  l <> [] -> nth_error l (List.length l - 1) = Some (last l d).
Proof.
  induction l as [| x rest IH]; [congruence |]. intros _.
  destruct rest as [| y rest']; [reflexivity |].
  replace (List.length (x :: y :: rest') - 1)
    with (S (List.length (y :: rest') - 1)) by (simpl; lia).
  change (last (x :: y :: rest') d) with (last (y :: rest') d).
  cbn [nth_error]. apply IH. discriminate.
Qed.

Lemma item_last (l : list HTMLElement) (d : HTMLElement) :
  l <> [] -> item l (Z.of_nat (List.length l) - 1) = Some (last l d).
Proof.
  intros Hne. unfold item.
  assert (Hlen : List.length l <> 0) by (destruct l; [congruence | discriminate]).
  destruct (Z.ltb_spec (Z.of_nat (List.length l) - 1) 0) as [Hneg | _]; [lia |].
  replace (Z.to_nat (Z.of_nat (List.length l) - 1)) with (List.length l - 1) by lia.
  now apply nth_error_last.
Qed.

(** X3. On a panel with at least one item, [focus(Focus.First)] focuses
    the first item and [focus(Focus.Last)] the last one; neither throws. *)
Theorem focus_First_and_Last_land_on_the_ends (w : World) :
  panelItems w <> [] ->
  Menu.focus (Target First) w = HTMLElement_focus (hd 0 (panelItems w)) w /\
  Menu.focus (Target Last) w = HTMLElement_focus (last (panelItems w) 0) w.
Proof.
  intros Hne. split.
  - simpl. apply focusIndex_at_item.
    destruct (panelItems w); [congruence | reflexivity].
  - simpl. unfold bind, gets. unfold panelItems in *.
    destruct (menuItemsRef w) as [ul |]; [| congruence]. simpl.
    now rewrite (item_last _ 0 Hne).
Qed.

Lemma focus_First_and_Last_land_on_the_ends_witness :
  panelItems Sample.opened <> [] /\
  activeElement (worldOf (Menu.focus (Target Last) Sample.opened)) = Some 4.
Proof.
  assert (Hne : panelItems Sample.opened <> []) by (simpl; discriminate).
  split; [exact Hne |].
  destruct (focus_First_and_Last_land_on_the_ends Sample.opened Hne) as [_ Hlast].
  rewrite Hlast. reflexivity.
Defined.

Lemma activeSiblings_of (w : World) (e p : HTMLElement) :
  activeElement w = Some e -> parentElement w e = Some p ->
  Menu.activeSiblings w = Some (children w p).
Proof.
  intros Ha Hp. unfold Menu.activeSiblings. rewrite Ha. simpl. now rewrite Hp.
Qed.

(** X4. [focus(Focus.Next)] takes the position of the active element among
    the children of its own parent, whichever element that parent is, and
    focuses the panel's item one position further, when there is one. With
    an item of the panel active this is the following item. *)
Theorem focus_Next_goes_one_position_down (w : World) (e p el : HTMLElement) :
  activeElement w = Some e ->
  parentElement w e = Some p ->
  item (panelItems w) (indexOf (children w p) (Some e) + 1) = Some el ->
  Menu.focus (Target Next) w = HTMLElement_focus el w.
Proof.
  intros Ha Hp Hitem. simpl. unfold bind, gets.
  rewrite (activeSiblings_of w e p Ha Hp). simpl. rewrite Ha.
  now apply focusIndex_at_item.
Qed.

Lemma focus_Next_goes_one_position_down_witness :
  activeElement Sample.opened = Some 2 /\
  parentElement Sample.opened 2 = Some 1 /\
  activeElement (worldOf (Menu.focus (Target Next) Sample.opened)) = Some 3.
Proof.
  split; [reflexivity | split; [reflexivity |]].
  rewrite (focus_Next_goes_one_position_down Sample.opened 2 1 3);
    reflexivity.
Defined.

(** X5. [focus(Focus.Previous)] likewise focuses the panel's item one
    position before that of the active element among its siblings. *)
Theorem focus_Previous_goes_one_position_up (w : World) (e p el : HTMLElement) :
  activeElement w = Some e ->
  parentElement w e = Some p ->
  item (panelItems w) (indexOf (children w p) (Some e) - 1) = Some el ->
  Menu.focus (Target Previous) w = HTMLElement_focus el w.
Proof.
  intros Ha Hp Hitem. simpl. unfold bind, gets.
  rewrite (activeSiblings_of w e p Ha Hp). simpl. rewrite Ha.
  now apply focusIndex_at_item.
Qed.

Lemma focus_Previous_goes_one_position_up_witness :
  activeElement Sample.opened_at_last = Some 4 /\
  parentElement Sample.opened_at_last 4 = Some 1 /\
  activeElement (worldOf (Menu.focus (Target Previous) Sample.opened_at_last)) = Some 3.
Proof.
  split; [reflexivity | split; [reflexivity |]].
  rewrite (focus_Previous_goes_one_position_up Sample.opened_at_last 4 1 3);
    reflexivity.
Defined.

(** The position is taken among the siblings of the active element even
    when these are not the panel's items: with the trigger's button active
    (position 0 under the menu's [div]), [Next] focuses the panel's second
    item. *)
Example focus_Next_from_the_trigger :
  activeElement (worldOf (Menu.focus (Target Next) Sample.trigger_focused)) = Some 3.
Proof. reflexivity. Qed.

(** ** The trigger *)


Lemma handleKeyUp_world (Keys : KeysEnum) (e : KeyboardEvent) (w : World) :
  worldOf (MenuButton.handleKeyUp Keys e w) = w.
Proof. unfold MenuButton.handleKeyUp. destruct (key e =? Space Keys); reflexivity. Qed.

Lemma MenuButton_handleKeyDown_cases (Keys : KeysEnum) (e : KeyboardEvent) (w : World) :
  MenuButton.handleKeyDown Keys Menu.api e w = Returns e w \/
  MenuButton.handleKeyDown Keys Menu.api e w
    = Returns (stopPropagation (preventDefault e))
              (set_ticks (ticks w ++ [FocusFirst]) (set_menuState Opened w)).
Proof.
  unfold MenuButton.handleKeyDown.
  destruct ((key e =? Space Keys) || (key e =? Enter Keys)
            || (key e =? ArrowDown Keys) || (key e =? ArrowUp Keys));
    [right | left]; reflexivity.
Qed.

(** X7. No key on the trigger closes the menu: after the keydown and the
    keyup listener of the button, for any key and any [Keys] table, an
    opened menu is still opened, and neither listener throws or calls
    [focus()]. Only a pointer activation or the panel can close it. *)
Theorem trigger_keys_never_close (Keys : KeysEnum) (e : KeyboardEvent) (w : World) :
  menuState w = Opened ->
  let down := MenuButton.handleKeyDown Keys Menu.api e w in
  let up := MenuButton.handleKeyUp Keys e w in
  raised down = None /\ raised up = None /\
  menuState (worldOf down) = Opened /\ menuState (worldOf up) = Opened /\
  focusCalls (worldOf down) = focusCalls w /\ focusCalls (worldOf up) = focusCalls w.
Proof.
  intros Hopen down up.
  assert (Hup : raised up = None /\ worldOf up = w).
  { unfold up, MenuButton.handleKeyUp.
    destruct (key e =? Space Keys); split; reflexivity. }
  destruct Hup as [Hup1 Hup2]. rewrite Hup2.
  destruct (MenuButton_handleKeyDown_cases Keys e w) as [H | H];
    unfold down; rewrite H; simpl; repeat split; assumption.
Qed.

Lemma trigger_keys_never_close_witness :
  menuState Sample.opened = Opened /\
  menuState (worldOf (MenuButton.handleKeyDown domKeys Menu.api
                        (keydown "Escape") Sample.opened)) = Opened.
Proof.
  split; [reflexivity |].
  apply (trigger_keys_never_close domKeys (keydown "Escape") Sample.opened).
  reflexivity.
Defined.

(** ** The deferred focus requests *)






(** ** Keys on a focused item *)

Lemma eqb_of_neq (a b : string) : a <> b -> (a =? b) = false.
Proof. apply String.eqb_neq. Qed.

(** X9. With a [Keys] table of five different strings, Down-arrow on a
    focused item is left alone by the item's own listener and handled by the
    panel's: default prevented, propagation stopped, and focus moved to the
    panel's item one position after the focused one, the menu staying as it
    is. *)
Theorem ArrowDown_on_item_moves_to_next_item
  (Keys : KeysEnum) (e : KeyboardEvent) (w : World) (active p el : HTMLElement) :
  distinctKeys Keys = true ->
  key e = ArrowDown Keys ->
  propagationStopped e = false ->
  activeElement w = Some active ->
  parentElement w active = Some p ->
  item (panelItems w) (indexOf (children w p) (Some active) + 1) = Some el ->
  keydownOnItem Keys Menu.api e w
    = Returns (stopPropagation (preventDefault e)) (worldOf (HTMLElement_focus el w)).
Proof.
  intros Hdistinct Hkey Hfresh Ha Hp Hitem.
  unfold distinctKeys in Hdistinct.
  repeat (apply andb_true_iff in Hdistinct; destruct Hdistinct as [Hdistinct ?]).
  repeat match goal with
         | H : negb _ = true |- _ => apply negb_true_iff in H
         end.
  unfold keydownOnItem, bind, MenuItem.handleKeyDown. rewrite Hkey.
  rewrite (String.eqb_sym (ArrowDown Keys) (Enter Keys)).
  rewrite (String.eqb_sym (ArrowDown Keys) (Space Keys)).
  repeat match goal with
         | H : (_ =? _) = false |- _ => rewrite H
         end.
  simpl. rewrite Hfresh.
  unfold MenuItems.handleKeyDown. simpl key. rewrite Hkey.
  rewrite (String.eqb_sym (ArrowDown Keys) (Escape Keys)).
  rewrite (String.eqb_sym (ArrowDown Keys) (ArrowUp Keys)).
  repeat match goal with
         | H : (_ =? _) = false |- _ => rewrite H
         end.
  rewrite String.eqb_refl. unfold bind.
  change (Api.focus Menu.api (Target Next) w) with (Menu.focus (Target Next) w).
  assert (Hnext : Menu.focus (Target Next) w = HTMLElement_focus el w).
  { simpl. unfold bind, gets.
    rewrite (activeSiblings_of w active p Ha Hp). simpl. rewrite Ha.
    now apply focusIndex_at_item. }
  rewrite Hnext. reflexivity.
Qed.

Lemma ArrowDown_on_item_moves_to_next_item_witness :
  distinctKeys domKeys = true /\
  key (keydown "ArrowDown") = ArrowDown domKeys /\
  activeElement Sample.opened = Some 2 /\
  activeElement (worldOf (keydownOnItem domKeys Menu.api (keydown "ArrowDown")
                            Sample.opened)) = Some 3.
Proof.
  split; [reflexivity | split; [reflexivity | split; [reflexivity |]]].
  rewrite (ArrowDown_on_item_moves_to_next_item
             domKeys (keydown "ArrowDown") Sample.opened 2 1 3); reflexivity.
Defined.

(** X10. A key that is none of the five of the [Keys] table is intercepted
    nowhere in the panel: after the item's and the panel's listeners the
    event is as it was (default not prevented, propagation not stopped) and
    the page is unchanged. *)
Theorem other_keys_pass_through_the_panel
  (Keys : KeysEnum) (e : KeyboardEvent) (w : World) :
  key e <> Space Keys -> key e <> Enter Keys -> key e <> Escape Keys ->
  key e <> ArrowUp Keys -> key e <> ArrowDown Keys ->
  keydownOnItem Keys Menu.api e w = Returns e w.
Proof.
  intros Hs He Hx Hu Hd.
  unfold keydownOnItem, bind, MenuItem.handleKeyDown, MenuItems.handleKeyDown.
  rewrite (eqb_of_neq _ _ Hs), (eqb_of_neq _ _ He). simpl.
  destruct (propagationStopped e); [reflexivity |].
  now rewrite (eqb_of_neq _ _ Hx), (eqb_of_neq _ _ Hu), (eqb_of_neq _ _ Hd).
Qed.

Lemma other_keys_pass_through_the_panel_witness :
  key (keydown "Tab") <> Space domKeys /\
  keydownOnItem domKeys Menu.api (keydown "Tab") Sample.opened
    = Returns (keydown "Tab") Sample.opened.
Proof.
  split; [discriminate |].
  apply other_keys_pass_through_the_panel; discriminate.
Defined.

(** ** The message of [useMenuContext] *)

Lemma string_length_append (a b : string) :
  String.length (a ++ b) = String.length a + String.length b.
Proof. induction a as [| c a IH]; simpl; [reflexivity | now rewrite IH]. Qed.

Lemma string_append_cancel_r (a b suffix : string) :
  a ++ suffix = b ++ suffix -> a = b.
Proof.
  revert b. induction a as [| c a IH]; intros [| d b] Heq; simpl in Heq.
  - reflexivity.
  - apply (f_equal String.length) in Heq. simpl in Heq.
    rewrite string_length_append in Heq. lia.
  - apply (f_equal String.length) in Heq. simpl in Heq.
    rewrite string_length_append in Heq. lia.
  - injection Heq as -> Heq. f_equal. now apply IH.
Qed.

(** X11. [useMenuContext] throws exactly when no [Menu] provides a context,
    and hands the provided context on untouched otherwise. The error tells
    the components apart: two component names give the same error only when
    they are the same name. *)
Theorem useMenuContext_error_names_the_component
  (c1 c2 : string) (provided : option Api.t) :
  ((exists err, useMenuContext c1 provided = inl err) <-> provided = None) /\
  ((exists api, provided = Some api /\ useMenuContext c1 provided = inr api)
   <-> provided <> None) /\
  (useMenuContext c1 None = useMenuContext c2 None <-> c1 = c2).
Proof.
  split; [| split].
  - destruct provided as [api |]; simpl; split.
    + intros [err H]. discriminate.
    + discriminate.
    + reflexivity.
    + intros _. eexists. reflexivity.
  - destruct provided as [api |]; simpl; split.
    + discriminate.
    + intros _. exists api. now split.
    + intros [api [H _]]. discriminate.
    + intros H. now contradiction H.
  - split; [| now intros ->].
    unfold useMenuContext. intros Heq.
    injection Heq as Heq.
    now apply string_append_cancel_r in Heq.
Qed.

(** ** Textarea: typing and re-rendering *)

Lemma Object_is_refl (v : Textarea.Value) : Textarea.Object_is v v = true.
Proof.
  destruct v as [| s | n | obj elems]; simpl.
  - reflexivity.
  - apply String.eqb_refl.
  - apply Z.eqb_refl.
  - apply Nat.eqb_refl.
Qed.

(** X12. While the [value] prop stays what it was at mount, the effect does
    not run again: after the user types [text], a re-render with the same
    props keeps the count at the length of [text], also when that differs
    from the length of [value]. *)
Theorem typed_count_survives_rerender (props : Textarea.Props) (text : string) :
  Textarea.characterCount
    (Textarea.rerender props (Textarea.handleInput text (Textarea.mount props)))
  = String.length text.
Proof.
  unfold Textarea.rerender, Textarea.handleInput, Textarea.mount. simpl.
  now rewrite Object_is_refl.
Qed.

(** X13. Rendering twice with the same props is rendering once: the second
    render finds the dependency unchanged and leaves the hook state alone. *)
Theorem rerender_is_idempotent (props : Textarea.Props) (st : Textarea.State) :
  Textarea.rerender props (Textarea.rerender props st) = Textarea.rerender props st.
Proof.
  unfold Textarea.rerender at 2 3.
  destruct (Textarea.Object_is (Textarea.value props) (Textarea.dep st)) eqn:Hsame.
  - unfold Textarea.rerender. now rewrite Hsame.
  - unfold Textarea.rerender. simpl. now rewrite Object_is_refl.
Qed.

(** X14. With a non-zero [maxLength], the counter after typing [text] shows
    the full length of [text] over the limit: the count is not capped at the
    limit, and the red class is there exactly when the length is strictly
    greater than the limit. *)
Theorem counter_after_typing
  (props : Textarea.Props) (st : Textarea.State) (text : string) (max : Z) :
  Textarea.maxLength props = Some max ->
  max <> 0%Z ->
  exists className,
    Textarea.counter props (Textarea.handleInput text st)
      = Textarea.Span className (String.length text) max /\
    (className = "text-end text-xs font-semibold text-red-400"
     <-> (max < Z.of_nat (String.length text))%Z) /\
    (className = "text-end text-xs"
     <-> (Z.of_nat (String.length text) <= max)%Z).
Proof.
  intros Hmax Hnz. unfold Textarea.counter, Textarea.handleInput. simpl.
  rewrite Hmax. destruct (Z.eqb_spec max 0) as [| _]; [contradiction |].
  destruct (Z.ltb_spec max (Z.of_nat (String.length text))) as [Hover | Hfits];
    eexists; (split; [reflexivity |]); split; split;
    try reflexivity; try discriminate; intros; lia.
Qed.

Lemma counter_after_typing_witness :
  Textarea.maxLength Sample.typed = Some 10%Z /\
  Textarea.counter Sample.typed
    (Textarea.handleInput "twelve chars" (Textarea.mount Sample.typed))
  = Textarea.Span "text-end text-xs font-semibold text-red-400" 12 10.
Proof.
  split; [reflexivity |].
  destruct (counter_after_typing Sample.typed (Textarea.mount Sample.typed)
              "twelve chars" 10%Z) as [className [Hcounter [Hred _]]].
  - reflexivity.
  - discriminate.
  - rewrite Hcounter. f_equal. apply Hred. simpl. lia.
Defined.

(** X15. A change of [value] to a truthy value resets the count to the
    length of the new value's text, whatever the user had typed before. *)
Theorem truthy_value_change_overrides_typed_count
  (props : Textarea.Props) (st : Textarea.State) (text : string) :
  Textarea.truthy (Textarea.value props) = true ->
  Textarea.Object_is (Textarea.value props) (Textarea.dep st) = false ->
  Textarea.characterCount
    (Textarea.rerender props (Textarea.handleInput text st))
  = String.length (Textarea.toString (Textarea.value props)).
Proof.
  intros Htruthy Hchanged.
  unfold Textarea.rerender, Textarea.handleInput, Textarea.effect. simpl.
  now rewrite Hchanged, Htruthy.
Qed.

Lemma truthy_value_change_overrides_typed_count_witness :
  Textarea.truthy (Textarea.value Sample.typed) = true /\
  Textarea.characterCount
    (Textarea.rerender Sample.typed
       (Textarea.handleInput "hello" (Textarea.mount Sample.cleared))) = 3.
Proof.
  split; [reflexivity |].
  rewrite (truthy_value_change_overrides_typed_count Sample.typed
             (Textarea.mount Sample.cleared) "hello"); reflexivity.
Defined.
